(** * FetcherService: the request/response pipeline of Rettiwt-API

    A shallow embedding of [src/services/FetcherService.ts] and of the
    pieces it is built from, followed by the properties of the pipeline:
    status classification ([handleHTTPError]), extraction of entities and
    of the pagination cursor ([extractData]), and the two pipelines
    ([fetch], [post]). *)

From Stdlib Require Import ZArith List Bool Floats.
From stdpp Require Import gmap strings list.

Open Scope string_scope.
Open Scope list_scope.
Open Scope Z_scope.

(** ** Values *)

(** What a response body can be: a parsed JSON document (or the raw text,
    a string, when the body is not JSON).  Numbers are IEEE doubles, as in
    JavaScript; an object keeps its properties in enumeration order, each
    key once. *)
#[local] Unset Elimination Schemes.
Inductive JSON : Type :=
| JNull
| JBool (b : bool)
| JNumber (n : float)
| JString (s : string)
| JArray (items : list JSON)
| JObject (fields : list (string * JSON)).
#[local] Set Elimination Schemes.

(** The first binding of [key] among the properties of an object. *)
Fixpoint lookup_field (key : string) (fields : list (string * JSON)) : option JSON :=
  match fields with
  | [] => None
  | (k, v) :: rest => if String.eqb k key then Some v else lookup_field key rest
  end.

(** [node[key]] for a named property; [None] is JavaScript's [undefined].
    Only objects carry named properties here (the pipeline never asks an
    array for its [length]). *)
Definition property (node : JSON) (key : string) : option JSON :=
  match node with
  | JObject fields => lookup_field key fields
  | _ => None
  end.

(** JavaScript's ToBoolean, the test behind [res.data ? true : false]:
    [null], [false], the empty string, and the numbers [+0], [-0] and [NaN]
    are falsy; every array and every object is truthy. *)
Definition ToBoolean (v : JSON) : bool :=
  match v with
  | JNull => false
  | JBool b => b
  | JNumber n => negb (PrimFloat.eqb n 0%float || PrimFloat.is_nan n)
  | JString s => negb (String.eqb s "")
  | JArray _ => true
  | JObject _ => true
  end.

(** The falsy bodies, spelt out. *)
Definition falsy (v : JSON) : Prop :=
  v = JNull \/ v = JBool false \/ v = JString ""
  \/ exists n, v = JNumber n /\ (PrimFloat.eqb n 0%float = true \/ PrimFloat.is_nan n = true).

(** ** The tree extractor *)

(** Whether the properties of an object carry [key == value]. *)
Definition carries (key value : string) (fields : list (string * JSON)) : bool :=
  match lookup_field key fields with
  | Some (JString s) => String.eqb s value
  | _ => false
  end.

(** Modelled from the spec: [findByFilter] of [src/helper/JsonUtils.ts] is
    imported by the service and its text is not part of the sources.  The
    spec (4.3): at an object node, first test whether it carries
    [key == value] and if so emit the node, then recurse into every field
    whether or not the node matched; at an array node recurse into every
    element in order; a scalar contributes nothing. *)
Fixpoint findByFilter (data : JSON) (key value : string) {struct data} : list JSON :=
  match data with
  | JArray items => flat_map (fun item => findByFilter item key value) items
  | JObject fields =>
      (if carries key value fields then [data] else [])
        ++ flat_map (fun kv => findByFilter (snd kv) key value) fields
  | _ => []
  end.

(** The nodes of a tree in depth-first pre-order, left to right: a node
    comes before its children, and the children in their order. *)
Fixpoint nodes (t : JSON) : list JSON :=
  t :: match t with
       | JArray items => flat_map nodes items
       | JObject fields => flat_map (fun kv => nodes (snd kv)) fields
       | _ => []
       end.

(** An object node [n] with [n[key] == value]. *)
Definition is_match (key value : string) (n : JSON) : bool :=
  match n with
  | JObject fields => carries key value fields
  | _ => false
  end.

(** ** Resource kinds, responses and failures *)

(** Modelled from the spec: the enumeration [EResourceType] belongs to the
    package rettiwt-core.  The service names three of its members; every
    other kind (6: a fixed two-bucket classification) is kept under one
    constructor that carries the member's name. *)
Inductive EResourceType : Type :=
| TWEET_DETAILS
| TWEET_SEARCH
| USER_LIKES
| OTHER_RESOURCE (name : string).

#[global] Instance EResourceType_eq_dec : EqDecision EResourceType.
Proof. solve_decision. Defined.

(** The request descriptor of rettiwt-core, as far as the service reads it. *)
Record Request : Type := mkRequest {
  url : string;
  type : string;
  payload : option JSON
}.

(** What the service hands to axios. *)
Record AxiosRequestConfig : Type := mkAxiosRequestConfig {
  cfg_url : string;
  cfg_method : string;
  cfg_data : option JSON;
  cfg_headers : list (string * string)
}.

(** What axios hands back. *)
Record AxiosResponse : Type := mkAxiosResponse {
  status : Z;
  statusText : string;
  data : JSON
}.

(** What a call can throw: the [Error] that [handleHTTPError] builds,
    whatever the transport rejects with when no response is obtained, or
    what the constructor of the request descriptor throws on arguments it
    rejects. *)
Inductive Exception : Type :=
| Error (message : string)
| TransportFailure (detail : string)
| ConstructorFailure (detail : string).

(** The outcome of a computation that may throw. *)
Inductive Result (A : Type) : Type :=
| Return (a : A)
| Throw (e : Exception).
Arguments Return {A} a.
Arguments Throw {A} e.

(** Modelled from the spec: the class [CursoredData] of
    [src/models/CursoredData.ts] is not part of the sources.  The spec (3,
    4.4): the paginated result holds the extracted sequence, in order, and
    an optional next-page cursor. *)
Record CursoredData : Type := mkCursoredData {
  entities : list JSON;
  next : option JSON
}.

(** ** Asynchronous calls

    A call runs against the log of the requests sent so far, may throw,
    and leaves the log it has extended. *)
Definition Async (A : Type) : Type :=
  list AxiosRequestConfig -> Result A * list AxiosRequestConfig.

Definition resolve {A : Type} (a : A) : Async A :=
  fun log => (Return a, log).

Definition settle {A : Type} (r : Result A) : Async A :=
  fun log => (r, log).

(** [p.then(k)], also [await p] followed by [k]: a rejected [p] skips [k]. *)
Definition and_then {A B : Type} (p : Async A) (k : A -> Async B) : Async B :=
  fun log =>
    match p log with
    | (Return a, log') => k a log'
    | (Throw e, log') => (Throw e, log')
    end.

Notation "x <- p ;; k" := (and_then p (fun x => k))
  (at level 100, p at next level, right associativity).

(** ** The service *)

Section FetcherService.

(** The status table [EHttpStatus] of [src/enums/HTTP.ts]: a numeric
    enumeration, read here through its reverse mapping from a code to
    the name of its member. *)
Variable EHttpStatus : gmap Z string.

(** The resource-specific arguments and the constructor
    [new Request(resourceType, args)] of rettiwt-core: it builds the
    descriptor, or throws on arguments it rejects. *)
Variable Args : Type.
Variable newRequest : EResourceType -> Args -> Result Request.

(** The header fields that [this.cred.toHeader()] yields (rettiwt-auth);
    a flat map of strings is its own JSON round trip. *)
Variable credHeader : list (string * string).

(** The transport: what [axios] answers to a request, given the requests
    sent before it; either a response or a rejection. *)
Variable axios : list AxiosRequestConfig -> AxiosRequestConfig -> Result AxiosResponse.

(** [code in EHttpStatus] for a numeric [code]. *)
Definition in_EHttpStatus (code : Z) : bool :=
  bool_decide (is_Some (EHttpStatus !! code)).

(** [EHttpStatus[code]]; [new Error(undefined)] has the empty message. *)
Definition EHttpStatus_at (code : Z) : string :=
  default "" (EHttpStatus !! code).

Definition handleHTTPError (res : AxiosResponse) : Result AxiosResponse :=
  if negb (status res =? 200) && in_EHttpStatus (status res)
  then Throw (Error (EHttpStatus_at (status res)))
  else Return res.

(** The configuration [request] builds from its descriptor. *)
Definition axiosRequest (config : Request) : AxiosRequestConfig :=
  {| cfg_url := url config;
     cfg_method := type config;
     cfg_data := payload config;
     cfg_headers := credHeader |}.

(** One call of [axios]: the request is sent and logged. *)
Definition send (cfg : AxiosRequestConfig) : Async AxiosResponse :=
  fun log => (axios log cfg, log ++ [cfg]).

Definition request (config : Request) : Async AxiosResponse :=
  res <- send (axiosRequest config) ;; settle (handleHTTPError res).

Definition extractData (data : JSON) (type : EResourceType) : CursoredData :=
  let required :=
    if bool_decide (type = TWEET_DETAILS)
       || bool_decide (type = TWEET_SEARCH)
       || bool_decide (type = USER_LIKES)
    then findByFilter data "__typename" "Tweet"
    else findByFilter data "__typename" "User" in
  mkCursoredData required
    (match head (findByFilter data "cursorType" "Bottom") with
     | Some cursor => property cursor "value"
     | None => None
     end).

Definition fetch (resourceType : EResourceType) (args : Args) : Async CursoredData :=
  request0 <- settle (newRequest resourceType args) ;;
  res <- (res <- request request0 ;; resolve (data res)) ;;
  let data := extractData res resourceType in
  resolve data.

Definition post (resourceType : EResourceType) (args : Args) : Async bool :=
  request0 <- settle (newRequest resourceType args) ;;
  res <- request request0 ;;
  resolve (if ToBoolean (data res) then true else false).

End FetcherService.

(** Modelled from the spec: the discriminator of a resource kind in the
    spec's words (4.4): tweet-details, tweet-search and user-likes-listing
    use "Tweet", every other kind uses "User". *)
Definition entityDiscriminator (type : EResourceType) : string :=
  match type with
  | TWEET_DETAILS | TWEET_SEARCH | USER_LIKES => "Tweet"
  | OTHER_RESOURCE _ => "User"
  end.

(** ** Sample data *)

(** Modelled from the spec: a status table with the codes the spec lists
    (6): 401, 403, 429 and a 5xx, beside 400 and 404. *)
Definition sampleStatusTable : gmap Z string :=
  list_to_map
    [ (400, "BAD_REQUEST"); (401, "UNAUTHORIZED"); (403, "FORBIDDEN");
      (404, "NOT_FOUND"); (429, "TOO_MANY_REQUESTS");
      (500, "INTERNAL_SERVER_ERROR") ].

(** The tree of the spec's first example (8). *)
Definition sampleTree : JSON :=
  JObject
    [ ("a", JObject [ ("__typename", JString "Tweet"); ("id", JNumber 1%float) ]);
      ("b", JArray
              [ JObject [ ("__typename", JString "User"); ("id", JNumber 2%float) ];
                JObject [ ("__typename", JString "Tweet"); ("id", JNumber 3%float) ] ]) ].

(** The cursor nodes of the spec's second example (8). *)
Definition sampleCursors : JSON :=
  JArray
    [ JObject [ ("cursorType", JString "Top"); ("value", JString "X") ];
      JObject [ ("cursorType", JString "Bottom"); ("value", JString "Y") ] ].

(** A body with a forward cursor and no entity, as an empty page has. *)
Definition emptyPage : JSON :=
  JObject
    [ ("entries", JArray []);
      ("cursor", JObject [ ("cursorType", JString "Bottom"); ("value", JString "Y") ]) ].

(** A sample descriptor builder: the kind decides the method. *)
Definition sampleRequest (type : EResourceType) (args : string) : Request :=
  {| url := "https://twitter.com/i/api/" +:+ args;
     type := match type with OTHER_RESOURCE "CREATE_TWEET" => "POST" | _ => "GET" end;
     payload := None |}.

(** A sample constructor: it rejects the empty argument. *)
Definition sampleNewRequest (type : EResourceType) (args : string) : Result Request :=
  if String.eqb args ""
  then Throw (ConstructorFailure "DataValidationError")
  else Return (sampleRequest type args).

Definition sampleHeader : list (string * string) :=
  [ ("authorization", "Bearer token"); ("cookie", "auth_token=t") ].

(** A transport that answers every request with the given outcome. *)
Definition answering (r : Result AxiosResponse)
    (log : list AxiosRequestConfig) (cfg : AxiosRequestConfig) : Result AxiosResponse := r.

Definition respond (code : Z) (body : JSON) : AxiosResponse :=
  {| status := code; statusText := ""; data := body |}.

(** Cursor nodes with two forward cursors. *)
Definition sampleTwoBottoms : JSON :=
  JArray
    [ JObject [ ("cursorType", JString "Top"); ("value", JString "X") ];
      JObject [ ("cursorType", JString "Bottom"); ("value", JString "Y") ];
      JObject [ ("cursorType", JString "Bottom"); ("value", JString "Z") ] ].

(** * Properties *)

(** ** Induction over a JSON tree

    The generated principle says nothing about the children of an array or
    of an object; this one hands over the property for each of them. *)
Section JSON_induction.

Variable P : JSON -> Prop.
Hypothesis P_null : P JNull.
Hypothesis P_bool : forall b, P (JBool b).
Hypothesis P_number : forall n, P (JNumber n).
Hypothesis P_string : forall s, P (JString s).
Hypothesis P_array : forall items, Forall P items -> P (JArray items).
Hypothesis P_object :
  forall fields, Forall (fun kv => P (snd kv)) fields -> P (JObject fields).

Fixpoint JSON_ind (t : JSON) : P t :=
  match t with
  | JNull => P_null
  | JBool b => P_bool b
  | JNumber n => P_number n
  | JString s => P_string s
  | JArray items =>
      P_array items
        ((fix children (l : list JSON) : Forall P l :=
            match l with
            | [] => @List.Forall_nil _ P
            | x :: l' => @List.Forall_cons _ P x l' (JSON_ind x) (children l')
            end) items)
  | JObject fields =>
      P_object fields
        ((fix children (l : list (string * JSON)) : Forall (fun kv => P (snd kv)) l :=
            match l with
            | [] => @List.Forall_nil _ _
            | kv :: l' => @List.Forall_cons _ _ kv l' (JSON_ind (snd kv)) (children l')
            end) fields)
  end.

End JSON_induction.

(** ** Lists *)

Lemma filter_flat_map {A B : Type} (p : B -> bool) (f : A -> list B) (l : list A) :
  List.filter p (flat_map f l) = flat_map (fun x => List.filter p (f x)) l.
Proof.
  induction l as [|x l IH]; simpl.
  - reflexivity.
  - rewrite List.filter_app, IH. reflexivity.
Qed.

Lemma flat_map_Forall_eq {A B : Type} (f g : A -> list B) (l : list A) :
  Forall (fun x => f x = g x) l -> flat_map f l = flat_map g l.
Proof.
  induction 1 as [|x l Hx _ IH]; simpl; congruence.
Qed.

Lemma head_filter_find {A : Type} (p : A -> bool) (l : list A) :
  head (List.filter p l) = List.find p l.
Proof.
  induction l as [|x l IH]; simpl; [reflexivity|].
  destruct (p x); simpl; auto.
Qed.

Lemma filter_none {A : Type} (p : A -> bool) (l : list A) :
  Forall (fun x => p x = false) l -> List.filter p l = [].
Proof.
  induction 1 as [|x l Hx _ IH]; simpl; [reflexivity|].
  rewrite Hx. exact IH.
Qed.

Lemma find_first {A : Type} (p : A -> bool) (pre post : list A) (x : A) :
  Forall (fun y => p y = false) pre -> p x = true ->
  List.find p (pre ++ x :: post) = Some x.
Proof.
  induction 1 as [|y pre Hy _ IH]; simpl; intros Hx.
  - rewrite Hx. reflexivity.
  - rewrite Hy. auto.
Qed.

(** ** The tree extractor *)

(** The extractor is the filter of the pre-order enumeration. *)
Lemma findByFilter_filter_nodes (key value : string) (t : JSON) :
  findByFilter t key value = List.filter (is_match key value) (nodes t).
Proof.
  induction t as [ | b | n | s | items IH | fields IH ] using JSON_ind;
    try reflexivity.
  - cbn [findByFilter nodes List.filter is_match].
    rewrite filter_flat_map. apply flat_map_Forall_eq. exact IH.
  - cbn [findByFilter nodes List.filter is_match].
    rewrite filter_flat_map.
    rewrite (flat_map_Forall_eq _ _ _ IH).
    destruct (carries key value fields); reflexivity.
Qed.

(** The cursor that [extractData] retains, read off the enumeration. *)
Lemma extractData_next_find (data : JSON) (type : EResourceType) :
  next (extractData data type) =
  match List.find (is_match "cursorType" "Bottom") (nodes data) with
  | Some n => property n "value"
  | None => None
  end.
Proof.
  unfold extractData; cbn [next].
  rewrite findByFilter_filter_nodes, head_filter_find. reflexivity.
Qed.

(** The entities that [extractData] collects, by the spec's classification. *)
Lemma extractData_entities (data : JSON) (type : EResourceType) :
  entities (extractData data type) =
  findByFilter data "__typename" (entityDiscriminator type).
Proof.
  destruct type; reflexivity.
Qed.

(** The spec's first example: the two tweets, in their order. *)
Example findByFilter_sampleTree :
  findByFilter sampleTree "__typename" "Tweet" =
  [ JObject [ ("__typename", JString "Tweet"); ("id", JNumber 1%float) ];
    JObject [ ("__typename", JString "Tweet"); ("id", JNumber 3%float) ] ].
Proof. reflexivity. Qed.

(** A match inside a match: both are emitted, the outer one first. *)
Example findByFilter_nested :
  let inner := JObject [ ("__typename", JString "Tweet"); ("id", JNumber 2%float) ] in
  let outer := JObject [ ("__typename", JString "Tweet"); ("quoted", inner) ] in
  findByFilter (JArray [ outer ]) "__typename" "Tweet" = [ outer; inner ].
Proof. reflexivity. Qed.

(** The spec's second example: the cursor is "Y". *)
Example extractData_sampleCursors :
  next (extractData sampleCursors TWEET_SEARCH) = Some (JString "Y").
Proof. reflexivity. Qed.

(** C2: for every tree and every discriminator pair, the extractor returns
    exactly the object nodes [n] with [n[key] == value], in the order of the
    depth-first pre-order left-to-right traversal: its result is the
    enumeration [nodes] with the nodes that do not match struck out, so
    nothing is dropped, repeated or moved, and a match below another match
    stays. *)
Theorem findByFilter_preorder_matches :
  forall (t : JSON) (key value : string),
    findByFilter t key value = List.filter (is_match key value) (nodes t)
    /\ (forall n, In n (findByFilter t key value) <->
                  In n (nodes t) /\ exists fields,
                    n = JObject fields /\
                    exists s, lookup_field key fields = Some (JString s) /\ s = value).
Proof.
  intros t key value. split.
  - apply findByFilter_filter_nodes.
  - intros n. rewrite findByFilter_filter_nodes, List.filter_In.
    split.
    + intros [Hin Hm]. split; [exact Hin|].
      destruct n as [ | | | | | fields ]; try discriminate Hm.
      exists fields. split; [reflexivity|].
      cbn in Hm. unfold carries in Hm.
      destruct (lookup_field key fields) as [[ | | | s | | ]|]; try discriminate Hm.
      exists s. split; [reflexivity|]. apply String.eqb_eq. exact Hm.
    + intros [Hin (fields & -> & s & Hs & ->)]. split; [exact Hin|].
      cbn. unfold carries. rewrite Hs. apply String.eqb_refl.
Qed.

(** ** The response normalizer *)

(** C3: the classification of resource kinds is a total function into the
    two discriminators: the entities of [extractData] are those the
    extractor finds for the discriminator of the kind, which is "Tweet"
    exactly for [TWEET_DETAILS], [TWEET_SEARCH] and [USER_LIKES], and "User"
    exactly for every other kind. *)
Theorem extractData_discriminator_classification :
  forall (type : EResourceType) (data : JSON),
    entities (extractData data type) =
      findByFilter data "__typename" (entityDiscriminator type)
    /\ (entityDiscriminator type = "Tweet" \/ entityDiscriminator type = "User")
    /\ (entityDiscriminator type = "Tweet" <->
          type = TWEET_DETAILS \/ type = TWEET_SEARCH \/ type = USER_LIKES)
    /\ (entityDiscriminator type = "User" <->
          type <> TWEET_DETAILS /\ type <> TWEET_SEARCH /\ type <> USER_LIKES).
Proof.
  intros type data. split; [apply extractData_entities|].
  destruct type; cbn [entityDiscriminator].
  all: split; [auto|]; split; split.
  all: try discriminate; try tauto.
  all: try (intros [H|[H|H]]; discriminate H).
  all: try (intros _; repeat split; discriminate).
  all: intros (H1 & H2 & H3); congruence.
Qed.

(** C4: the cursor of the result is the [value] of the first node, in
    traversal order, whose [cursorType] is "Bottom": whatever follows that
    node in the traversal does not count; and with no such node the cursor
    is absent. *)
Theorem extractData_cursor_first_Bottom :
  forall (data : JSON) (type : EResourceType),
    (forall (pre : list JSON) (n : JSON) (post : list JSON),
        nodes data = pre ++ n :: post ->
        Forall (fun m => is_match "cursorType" "Bottom" m = false) pre ->
        is_match "cursorType" "Bottom" n = true ->
        next (extractData data type) = property n "value")
    /\ (Forall (fun m => is_match "cursorType" "Bottom" m = false) (nodes data) ->
        next (extractData data type) = None).
Proof.
  intros data type. split.
  - intros pre n post Hnodes Hpre Hn.
    rewrite extractData_next_find, Hnodes, (find_first _ _ _ _ Hpre Hn).
    reflexivity.
  - intros Hnone. unfold extractData; cbn [next].
    rewrite findByFilter_filter_nodes, (filter_none _ _ Hnone). reflexivity.
Qed.

Lemma extractData_cursor_first_Bottom_witness :
  next (extractData sampleTwoBottoms USER_LIKES) = Some (JString "Y")
  /\ next (extractData sampleTree USER_LIKES) = None.
Proof.
  split.
  - destruct (extractData_cursor_first_Bottom sampleTwoBottoms USER_LIKES) as [H _].
    apply (H [ sampleTwoBottoms;
               JObject [ ("cursorType", JString "Top"); ("value", JString "X") ];
               JString "Top"; JString "X" ]
             (JObject [ ("cursorType", JString "Bottom"); ("value", JString "Y") ])
             [ JString "Bottom"; JString "Y";
               JObject [ ("cursorType", JString "Bottom"); ("value", JString "Z") ];
               JString "Bottom"; JString "Z" ]).
    + reflexivity.
    + repeat constructor.
    + reflexivity.
  - destruct (extractData_cursor_first_Bottom sampleTree USER_LIKES) as [_ H].
    apply H. repeat constructor.
Defined.

(** An empty page: no entity matches, and yet the cursor is there. *)
Lemma extractData_no_entity_cursor_present :
  List.filter (is_match "__typename" "Tweet") (nodes emptyPage) = []
  /\ entities (extractData emptyPage TWEET_SEARCH) = []
  /\ next (extractData emptyPage TWEET_SEARCH) = Some (JString "Y").
Proof. repeat split. Qed.

(** C7 (amended): when the entity discriminator of the requested kind
    matches no node, [extractData], a total function with no failing path,
    yields the empty entity sequence; the cursor is absent when, besides, no
    node has [cursorType] "Bottom", as in an empty tree, and is otherwise
    the [value] of the first such node. *)
Theorem extractData_no_match_empty :
  forall (data : JSON) (type : EResourceType),
    Forall (fun n => is_match "__typename" (entityDiscriminator type) n = false)
      (nodes data) ->
    entities (extractData data type) = []
    /\ (Forall (fun n => is_match "cursorType" "Bottom" n = false) (nodes data) ->
        next (extractData data type) = None)
    /\ (forall n, List.find (is_match "cursorType" "Bottom") (nodes data) = Some n ->
                  next (extractData data type) = property n "value").
Proof.
  intros data type Hnone. repeat split.
  - rewrite extractData_entities, findByFilter_filter_nodes.
    apply filter_none. exact Hnone.
  - intros Hcur. unfold extractData; cbn [next].
    rewrite findByFilter_filter_nodes, (filter_none _ _ Hcur). reflexivity.
  - intros n Hn. rewrite extractData_next_find, Hn. reflexivity.
Qed.

Lemma extractData_no_match_empty_witness :
  entities (extractData (JObject []) TWEET_DETAILS) = []
  /\ next (extractData (JObject []) TWEET_DETAILS) = None.
Proof.
  assert (Hnone : forall key value,
             Forall (fun n => is_match key value n = false) (nodes (JObject [])))
    by (intros key value; repeat constructor).
  destruct (extractData_no_match_empty (JObject []) TWEET_DETAILS
              (Hnone "__typename" "Tweet")) as (He & Hc & _).
  split; [exact He | exact (Hc (Hnone "cursorType" "Bottom"))].
Defined.

(** ** Truthiness *)

Lemma ToBoolean_false_iff (v : JSON) : ToBoolean v = false <-> falsy v.
Proof.
  unfold falsy. destruct v as [ | b | n | s | items | fields ]; cbn [ToBoolean].
  - split; [auto|reflexivity].
  - split.
    + intros ->. auto.
    + intros [H|[H|[H|(n & H & _)]]]; try discriminate H. congruence.
  - rewrite negb_false_iff, orb_true_iff. split.
    + intros H. do 3 right. exists n. auto.
    + intros [H|[H|[H|(m & H & Hm)]]]; try discriminate H. congruence.
  - rewrite negb_false_iff, String.eqb_eq. split.
    + intros ->. auto.
    + intros [H|[H|[H|(n & H & _)]]]; try discriminate H. congruence.
  - split; [discriminate|].
    intros [H|[H|[H|(n & H & _)]]]; discriminate H.
  - split; [discriminate|].
    intros [H|[H|[H|(n & H & _)]]]; discriminate H.
Qed.

Lemma ToBoolean_true_iff (v : JSON) : ToBoolean v = true <-> ~ falsy v.
Proof.
  rewrite <- ToBoolean_false_iff. destruct (ToBoolean v); split; congruence.
Qed.

(** ** The pipelines *)

Section Pipeline.

Variable EHttpStatus : gmap Z string.
Variable Args : Type.
Variable newRequest : EResourceType -> Args -> Result Request.
Variable credHeader : list (string * string).
Variable axios : list AxiosRequestConfig -> AxiosRequestConfig -> Result AxiosResponse.

(** The three ways through the classification step. *)
Lemma handleHTTPError_cases (res : AxiosResponse) :
  handleHTTPError EHttpStatus res =
  if decide (status res = 200) then Return res
  else match EHttpStatus !! status res with
       | Some name => Throw (Error name)
       | None => Return res
       end.
Proof.
  unfold handleHTTPError, in_EHttpStatus, EHttpStatus_at.
  destruct (decide (status res = 200)) as [H200|H200].
  - rewrite H200. reflexivity.
  - apply Z.eqb_neq in H200. rewrite H200.
    destruct (EHttpStatus !! status res) as [name|]; reflexivity.
Qed.

Lemma handleHTTPError_Return (res r : AxiosResponse) :
  handleHTTPError EHttpStatus res = Return r -> r = res.
Proof.
  rewrite handleHTTPError_cases.
  destruct (decide (status res = 200)); [congruence|].
  destruct (EHttpStatus !! status res); congruence.
Qed.

(** What [request] does, by the outcome of the transport. *)
Lemma request_run (config : Request) (log : list AxiosRequestConfig) :
  request EHttpStatus credHeader axios config log =
  (match axios log (axiosRequest credHeader config) with
   | Return res => handleHTTPError EHttpStatus res
   | Throw e => Throw e
   end, log ++ [axiosRequest credHeader config]).
Proof.
  unfold request, and_then, send, settle.
  destruct (axios log (axiosRequest credHeader config)); reflexivity.
Qed.

(** What [fetch] does: nothing is sent when the constructor throws. *)
Lemma fetch_run (type : EResourceType) (args : Args) (log : list AxiosRequestConfig) :
  fetch EHttpStatus Args newRequest credHeader axios type args log =
  match newRequest type args with
  | Return config =>
      (match request EHttpStatus credHeader axios config log with
       | (Return res, _) => Return (extractData (data res) type)
       | (Throw e, _) => Throw e
       end, log ++ [axiosRequest credHeader config])
  | Throw e => (Throw e, log)
  end.
Proof.
  unfold fetch, and_then, settle, resolve.
  destruct (newRequest type args) as [config|e0]; [|reflexivity].
  rewrite request_run.
  destruct (axios log _) as [res|e]; [|reflexivity].
  destruct (handleHTTPError EHttpStatus res); reflexivity.
Qed.

(** What [post] does: nothing is sent when the constructor throws. *)
Lemma post_run (type : EResourceType) (args : Args) (log : list AxiosRequestConfig) :
  post EHttpStatus Args newRequest credHeader axios type args log =
  match newRequest type args with
  | Return config =>
      (match request EHttpStatus credHeader axios config log with
       | (Return res, _) => Return (ToBoolean (data res))
       | (Throw e, _) => Throw e
       end, log ++ [axiosRequest credHeader config])
  | Throw e => (Throw e, log)
  end.
Proof.
  unfold post, and_then, settle, resolve.
  destruct (newRequest type args) as [config|e0]; [|reflexivity].
  rewrite request_run.
  destruct (axios log _) as [res|e]; [|reflexivity].
  destruct (handleHTTPError EHttpStatus res) as [r|e]; [|reflexivity].
  destruct (ToBoolean (data r)); reflexivity.
Qed.

(** C6: a response with status exactly 200 passes the classification
    step unchanged, whatever its body; a response whose status is not 200
    and is a key of the status table fails with the name the table gives
    to that status. *)
Theorem handleHTTPError_200_and_listed :
  forall res : AxiosResponse,
    (status res = 200 -> handleHTTPError EHttpStatus res = Return res)
    /\ (forall name : string,
          status res <> 200 -> EHttpStatus !! status res = Some name ->
          handleHTTPError EHttpStatus res = Throw (Error name)).
Proof.
  intros res. rewrite handleHTTPError_cases. split.
  - intros H200. destruct (decide (status res = 200)); [reflexivity|contradiction].
  - intros name Hne Hname.
    destruct (decide (status res = 200)); [contradiction|].
    rewrite Hname. reflexivity.
Qed.


(** C10: when the classification step does not fail, what it returns is
    the response it was given; so the body that [fetch] hands to
    [extractData] is the body of the response the transport delivered. *)
Theorem handleHTTPError_identity_on_return :
  forall (res r : AxiosResponse),
    handleHTTPError EHttpStatus res = Return r ->
    r = res
    /\ (forall (type : EResourceType) (args : Args) (log : list AxiosRequestConfig)
               (config : Request),
          newRequest type args = Return config ->
          axios log (axiosRequest credHeader config) = Return res ->
          fst (fetch EHttpStatus Args newRequest credHeader axios type args log) =
          Return (extractData (data res) type)).
Proof.
  intros res r Hr. pose proof (handleHTTPError_Return _ _ Hr) as ->.
  split; [reflexivity|].
  intros type args log config Hnew Hax.
  rewrite fetch_run, Hnew, request_run, Hax, Hr. reflexivity.
Qed.

(** C8: when the transport rejects, or the classification step fails,
    [fetch] ends with that very failure, nothing in its place, and the
    log of requests has grown by the one request of the call: nothing is
    sent again. *)
Theorem fetch_failure_propagates :
  forall (type : EResourceType) (args : Args) (log : list AxiosRequestConfig)
         (config : Request) (e : Exception),
    newRequest type args = Return config ->
    (axios log (axiosRequest credHeader config) = Throw e
     \/ exists res,
         axios log (axiosRequest credHeader config) = Return res
         /\ handleHTTPError EHttpStatus res = Throw e) ->
    fetch EHttpStatus Args newRequest credHeader axios type args log =
    (Throw e, log ++ [axiosRequest credHeader config]).
Proof.
  intros type args log config e Hnew Hfail. rewrite fetch_run, Hnew, request_run.
  destruct Hfail as [Hax|(res & Hax & Hres)]; rewrite Hax; [|rewrite Hres];
    reflexivity.
Qed.

(** C9: [post] sends the request that [fetch] sends; when the
    classification step fails on the response, [post] throws that
    failure; and [post] returns false only for a response that passed the
    classification step and whose body is falsy. *)
Theorem post_failure_throws :
  forall (type : EResourceType) (args : Args) (log : list AxiosRequestConfig),
    snd (post EHttpStatus Args newRequest credHeader axios type args log) =
      snd (fetch EHttpStatus Args newRequest credHeader axios type args log)
    /\ (forall (config : Request) (res : AxiosResponse) (e : Exception),
          newRequest type args = Return config ->
          axios log (axiosRequest credHeader config) = Return res ->
          handleHTTPError EHttpStatus res = Throw e ->
          fst (post EHttpStatus Args newRequest credHeader axios type args log) = Throw e)
    /\ (fst (post EHttpStatus Args newRequest credHeader axios type args log) = Return false ->
        exists config res,
          newRequest type args = Return config
          /\ axios log (axiosRequest credHeader config) = Return res
          /\ handleHTTPError EHttpStatus res = Return res
          /\ ToBoolean (data res) = false).
Proof.
  intros type args log. rewrite post_run, fetch_run.
  destruct (newRequest type args) as [config|e0].
  - rewrite request_run. split; [reflexivity|]. split.
    + intros config' res e [= <-] Hax Hres. rewrite Hax, Hres. reflexivity.
    + destruct (axios log _) as [res|e] eqn:Hax; [|discriminate].
      destruct (handleHTTPError EHttpStatus res) as [r|e] eqn:Hres; [|discriminate].
      pose proof (handleHTTPError_Return _ _ Hres) as ->.
      cbn [fst]. intros [= Hfalse]. exists config, res. auto.
  - split; [reflexivity|]. split.
    + intros config res e Hnew. discriminate Hnew.
    + cbn [fst]. discriminate.
Qed.

(** C5: for a response with status 200, [post] returns the truthiness of
    the body: false exactly for the falsy bodies ([null], [false], the
    empty string, a zero; [NaN], which no JSON text denotes, is falsy
    too), true for every other body. *)
Theorem post_200_truthiness :
  forall (type : EResourceType) (args : Args) (log : list AxiosRequestConfig)
         (config : Request) (res : AxiosResponse),
    newRequest type args = Return config ->
    axios log (axiosRequest credHeader config) = Return res ->
    status res = 200 ->
    fst (post EHttpStatus Args newRequest credHeader axios type args log) =
      Return (ToBoolean (data res))
    /\ (fst (post EHttpStatus Args newRequest credHeader axios type args log) =
          Return false <-> falsy (data res))
    /\ (fst (post EHttpStatus Args newRequest credHeader axios type args log) =
          Return true <-> ~ falsy (data res)).
Proof.
  intros type args log config res Hnew Hax H200.
  rewrite post_run, Hnew, request_run, Hax, handleHTTPError_cases.
  destruct (decide (status res = 200)); [|contradiction].
  cbn [fst]. split; [reflexivity|].
  rewrite <- ToBoolean_true_iff, <- ToBoolean_false_iff.
  split; split; congruence.
Qed.

End Pipeline.

(** ** The properties at sample inputs *)



Lemma handleHTTPError_200_and_listed_witness :
  handleHTTPError sampleStatusTable (respond 200 (JString "")) = Return (respond 200 (JString ""))
  /\ handleHTTPError sampleStatusTable (respond 429 JNull) = Throw (Error "TOO_MANY_REQUESTS").
Proof.
  split.
  - apply (proj1 (handleHTTPError_200_and_listed sampleStatusTable (respond 200 (JString "")))).
    reflexivity.
  - apply (proj2 (handleHTTPError_200_and_listed sampleStatusTable (respond 429 JNull))).
    + cbn. lia.
    + reflexivity.
Defined.

Lemma handleHTTPError_identity_on_return_witness :
  respond 200 sampleTree = respond 200 sampleTree
  /\ fst (fetch sampleStatusTable string sampleNewRequest sampleHeader
            (answering (Return (respond 200 sampleTree))) TWEET_DETAILS "x" []) =
     Return (extractData sampleTree TWEET_DETAILS).
Proof.
  destruct (handleHTTPError_identity_on_return sampleStatusTable string sampleNewRequest
              sampleHeader (answering (Return (respond 200 sampleTree)))
              (respond 200 sampleTree) (respond 200 sampleTree) eq_refl) as [Hid Hfetch].
  split; [exact Hid|].
  apply (Hfetch TWEET_DETAILS "x" [] (sampleRequest TWEET_DETAILS "x")); reflexivity.
Defined.

Lemma fetch_failure_propagates_witness :
  fetch sampleStatusTable string sampleNewRequest sampleHeader
    (answering (Throw (TransportFailure "ECONNRESET"))) TWEET_SEARCH "q" [] =
  (Throw (TransportFailure "ECONNRESET"),
   [] ++ [axiosRequest sampleHeader (sampleRequest TWEET_SEARCH "q")])
  /\ fetch sampleStatusTable string sampleNewRequest sampleHeader
       (answering (Return (respond 401 JNull))) TWEET_SEARCH "q" [] =
     (Throw (Error "UNAUTHORIZED"),
      [] ++ [axiosRequest sampleHeader (sampleRequest TWEET_SEARCH "q")]).
Proof.
  split.
  - apply (fetch_failure_propagates sampleStatusTable string sampleNewRequest sampleHeader
             (answering (Throw (TransportFailure "ECONNRESET")))).
    + reflexivity.
    + left. reflexivity.
  - apply (fetch_failure_propagates sampleStatusTable string sampleNewRequest sampleHeader
             (answering (Return (respond 401 JNull)))).
    + reflexivity.
    + right. exists (respond 401 JNull). split; reflexivity.
Defined.

Lemma post_failure_throws_witness :
  fst (post sampleStatusTable string sampleNewRequest sampleHeader
         (answering (Return (respond 403 (JString "denied"))))
         (OTHER_RESOURCE "CREATE_TWEET") "t" []) = Throw (Error "FORBIDDEN")
  /\ exists config res,
       sampleNewRequest (OTHER_RESOURCE "CREATE_TWEET") "t" = Return config
       /\ answering (Return (respond 200 (JString ""))) []
            (axiosRequest sampleHeader config) = Return res
       /\ handleHTTPError sampleStatusTable res = Return res
       /\ ToBoolean (data res) = false.
Proof.
  split.
  - apply (proj1 (proj2 (post_failure_throws sampleStatusTable string sampleNewRequest
                           sampleHeader (answering (Return (respond 403 (JString "denied"))))
                           (OTHER_RESOURCE "CREATE_TWEET") "t" []))
             (sampleRequest (OTHER_RESOURCE "CREATE_TWEET") "t")
             (respond 403 (JString "denied"))); reflexivity.
  - apply (proj2 (proj2 (post_failure_throws sampleStatusTable string sampleNewRequest
                           sampleHeader (answering (Return (respond 200 (JString ""))))
                           (OTHER_RESOURCE "CREATE_TWEET") "t" []))).
    reflexivity.
Defined.

Lemma post_200_truthiness_witness :
  fst (post sampleStatusTable string sampleNewRequest sampleHeader
         (answering (Return (respond 200 (JNumber 0%float))))
         (OTHER_RESOURCE "CREATE_TWEET") "t" []) = Return false
  /\ fst (post sampleStatusTable string sampleNewRequest sampleHeader
            (answering (Return (respond 200 (JObject [ ("ok", JBool true) ]))))
            (OTHER_RESOURCE "CREATE_TWEET") "t" []) = Return true.
Proof.
  split.
  - apply (proj1 (post_200_truthiness sampleStatusTable string sampleNewRequest sampleHeader
                    (answering (Return (respond 200 (JNumber 0%float))))
                    (OTHER_RESOURCE "CREATE_TWEET") "t" []
                    (sampleRequest (OTHER_RESOURCE "CREATE_TWEET") "t")
                    (respond 200 (JNumber 0%float)) eq_refl eq_refl eq_refl)).
  - apply (proj1 (post_200_truthiness sampleStatusTable string sampleNewRequest sampleHeader
                    (answering (Return (respond 200 (JObject [ ("ok", JBool true) ]))))
                    (OTHER_RESOURCE "CREATE_TWEET") "t" []
                    (sampleRequest (OTHER_RESOURCE "CREATE_TWEET") "t")
                    (respond 200 (JObject [ ("ok", JBool true) ])) eq_refl eq_refl eq_refl)).
Defined.


(** * Further properties of the service

    What each call does on every outcome of the transport: when it
    resolves, when it rejects, and what it sends. *)

Section Outcomes.

Variable EHttpStatus : gmap Z string.
Variable Args : Type.
Variable newRequest : EResourceType -> Args -> Result Request.
Variable credHeader : list (string * string).
Variable axios : list AxiosRequestConfig -> AxiosRequestConfig -> Result AxiosResponse.

(** The statuses the classification step lets through. *)
Lemma handleHTTPError_Return_iff (res r : AxiosResponse) :
  handleHTTPError EHttpStatus res = Return r <->
  r = res /\ (status res = 200 \/ EHttpStatus !! status res = None).
Proof.
  rewrite handleHTTPError_cases.
  destruct (decide (status res = 200)) as [H200|H200].
  - split; [intros [= <-]; auto | intros [-> _]; reflexivity].
  - destruct (EHttpStatus !! status res) as [name|].
    + split; [discriminate|]. intros [_ [H|H]]; [contradiction|discriminate H].
    + split; [intros [= <-]; auto | intros [-> _]; reflexivity].
Qed.

(** The failures of the classification step. *)
Lemma handleHTTPError_Throw_iff (res : AxiosResponse) (e : Exception) :
  handleHTTPError EHttpStatus res = Throw e <->
  status res <> 200 /\ exists name, EHttpStatus !! status res = Some name /\ e = Error name.
Proof.
  rewrite handleHTTPError_cases.
  destruct (decide (status res = 200)) as [H200|H200].
  - split; [discriminate|]. intros [Hne _]. contradiction.
  - destruct (EHttpStatus !! status res) as [name|].
    + split.
      * intros [= <-]. split; [exact H200|]. exists name. auto.
      * intros (_ & name' & [= <-] & ->). reflexivity.
    + split; [discriminate|]. intros (_ & name & Hname & _). discriminate Hname.
Qed.

(** When [request] resolves. *)
Lemma request_Return_iff (config : Request) (log : list AxiosRequestConfig)
    (r : AxiosResponse) :
  fst (request EHttpStatus credHeader axios config log) = Return r <->
  axios log (axiosRequest credHeader config) = Return r
  /\ (status r = 200 \/ EHttpStatus !! status r = None).
Proof.
  rewrite request_run. cbn [fst].
  destruct (axios log (axiosRequest credHeader config)) as [res|e0].
  - rewrite handleHTTPError_Return_iff. split.
    + intros [-> Hpass]. auto.
    + intros [[= ->] Hpass]. auto.
  - split; [discriminate|]. intros [H _]. discriminate H.
Qed.

(** When [request] rejects. *)
Lemma request_Throw_iff (config : Request) (log : list AxiosRequestConfig)
    (e : Exception) :
  fst (request EHttpStatus credHeader axios config log) = Throw e <->
  axios log (axiosRequest credHeader config) = Throw e
  \/ exists res name,
       axios log (axiosRequest credHeader config) = Return res
       /\ status res <> 200
       /\ EHttpStatus !! status res = Some name
       /\ e = Error name.
Proof.
  rewrite request_run. cbn [fst].
  destruct (axios log (axiosRequest credHeader config)) as [res|e0].
  - rewrite handleHTTPError_Throw_iff. split.
    + intros (Hne & name & Hname & ->). right. exists res, name. auto.
    + intros [H|(res' & name & [= <-] & Hne & Hname & ->)]; [discriminate H|].
      split; [exact Hne|]. exists name. auto.
  - split.
    + intros [= ->]. left. reflexivity.
    + intros [[= ->]|(res & name & H & _)]; [reflexivity|discriminate H].
Qed.

(** X1: [request] resolves with a response exactly when the transport
    delivered that very response and its status is 200 or is no key of the
    status table; it rejects exactly with the rejection of the transport,
    which the classification step never sees, or with the table's name for
    a delivered status that is not 200 and is in the table. *)
Theorem request_outcome :
  forall (config : Request) (log : list AxiosRequestConfig),
    (forall r : AxiosResponse,
        fst (request EHttpStatus credHeader axios config log) = Return r <->
        axios log (axiosRequest credHeader config) = Return r
        /\ (status r = 200 \/ EHttpStatus !! status r = None))
    /\ (forall e : Exception,
          fst (request EHttpStatus credHeader axios config log) = Throw e <->
          axios log (axiosRequest credHeader config) = Throw e
          \/ exists res name,
               axios log (axiosRequest credHeader config) = Return res
               /\ status res <> 200
               /\ EHttpStatus !! status res = Some name
               /\ e = Error name).
Proof.
  intros config log. split.
  - intros r. apply request_Return_iff.
  - intros e. apply request_Throw_iff.
Qed.

(** X2: [fetch] returns a result only when the constructor built the
    descriptor and the transport delivered a response whose status is 200
    or is no key of the status table; the result is then the extraction
    from the body of that response. *)
Theorem fetch_returns_only_passed :
  forall (type : EResourceType) (args : Args) (log : list AxiosRequestConfig)
         (d : CursoredData),
    fst (fetch EHttpStatus Args newRequest credHeader axios type args log) = Return d ->
    exists config res,
      newRequest type args = Return config
      /\ axios log (axiosRequest credHeader config) = Return res
      /\ (status res = 200 \/ EHttpStatus !! status res = None)
      /\ d = extractData (data res) type.
Proof.
  intros type args log d. rewrite fetch_run.
  destruct (newRequest type args) as [config|e0]; [|discriminate].
  pose proof (request_Return_iff config log) as Hret.
  destruct (request EHttpStatus credHeader axios config log) as [[r|e] log'];
    cbn [fst] in *; [|discriminate].
  intros [= <-]. exists config, r.
  destruct (proj1 (Hret r) eq_refl) as [Hax Hpass]. auto.
Qed.

(** X3: [post] returns a boolean exactly when the constructor built the
    descriptor and the transport delivered a response whose status is 200
    or is no key of the status table, and the boolean is the truthiness of
    the body of that response: the status and the kind of resource do not
    enter it; [post] throws exactly what the constructor throws or, the
    descriptor built, what [request] throws. *)
Theorem post_outcome :
  forall (type : EResourceType) (args : Args) (log : list AxiosRequestConfig),
    (forall b : bool,
        fst (post EHttpStatus Args newRequest credHeader axios type args log) = Return b <->
        exists config res,
          newRequest type args = Return config
          /\ axios log (axiosRequest credHeader config) = Return res
          /\ (status res = 200 \/ EHttpStatus !! status res = None)
          /\ b = ToBoolean (data res))
    /\ (forall e : Exception,
          fst (post EHttpStatus Args newRequest credHeader axios type args log) = Throw e <->
          newRequest type args = Throw e
          \/ exists config,
               newRequest type args = Return config
               /\ fst (request EHttpStatus credHeader axios config log) = Throw e).
Proof.
  intros type args log. rewrite post_run.
  destruct (newRequest type args) as [config|e0].
  - pose proof (request_Return_iff config log) as Hret.
    destruct (request EHttpStatus credHeader axios config log) as [[r|e1] log'] eqn:Hreq;
      cbn [fst] in *; split.
    + intros b. split.
      * intros [= <-]. exists config, r. destruct (proj1 (Hret r) eq_refl). auto.
      * intros (config' & res & [= <-] & Hax & Hpass & ->).
        pose proof (proj2 (Hret res) (conj Hax Hpass)) as [= ->]. reflexivity.
    + intros e. split; [discriminate|].
      intros [H|(config' & [= <-] & H)]; [discriminate H|].
      rewrite Hreq in H. discriminate H.
    + intros b. split; [discriminate|].
      intros (config' & res & [= <-] & Hax & Hpass & _).
      pose proof (proj2 (Hret res) (conj Hax Hpass)) as H. discriminate H.
    + intros e. split.
      * intros [= ->]. right. exists config. rewrite Hreq. auto.
      * intros [H|(config' & [= <-] & H)]; [discriminate H|].
        rewrite Hreq in H. cbn [fst] in H. injection H as ->. reflexivity.
  - cbn [fst]. split.
    + intros b. split; [discriminate|].
      intros (config & res & H & _). discriminate H.
    + intros e. split.
      * intros [= ->]. left. reflexivity.
      * intros [[= ->]|(config & H & _)]; [reflexivity|discriminate H].
Qed.

(** X4: when the constructor has built the descriptor, a call of [fetch]
    or of [post] leaves the earlier requests as they were and adds exactly
    one, on every outcome of the transport, a success included: the request
    with the url, the method and the payload of the descriptor, under the
    headers of the credential.  When the constructor throws, the call ends
    with that failure and nothing is sent. *)
Theorem fetch_post_requests_sent :
  forall (resourceType : EResourceType) (args : Args) (log : list AxiosRequestConfig),
    (forall config : Request,
        newRequest resourceType args = Return config ->
        let sent := {| cfg_url := url config;
                       cfg_method := type config;
                       cfg_data := payload config;
                       cfg_headers := credHeader |} in
        snd (fetch EHttpStatus Args newRequest credHeader axios resourceType args log)
          = log ++ [sent]
        /\ snd (post EHttpStatus Args newRequest credHeader axios resourceType args log)
          = log ++ [sent])
    /\ (forall e : Exception,
          newRequest resourceType args = Throw e ->
          fetch EHttpStatus Args newRequest credHeader axios resourceType args log
            = (Throw e, log)
          /\ post EHttpStatus Args newRequest credHeader axios resourceType args log
            = (Throw e, log)).
Proof.
  intros resourceType args log. rewrite fetch_run, post_run. split.
  - intros config ->. split; reflexivity.
  - intros e ->. split; reflexivity.
Qed.

(** X5: the classification step reads the status and nothing else: two
    responses with the same status pass together or fail together, with the
    same failure, so the failure holds nothing of the body or of the status
    text of the response. *)
Theorem handleHTTPError_reads_status_only :
  forall (r1 r2 : AxiosResponse),
    status r1 = status r2 ->
    (handleHTTPError EHttpStatus r1 = Return r1 <->
     handleHTTPError EHttpStatus r2 = Return r2)
    /\ (forall e : Exception,
          handleHTTPError EHttpStatus r1 = Throw e <->
          handleHTTPError EHttpStatus r2 = Throw e).
Proof.
  intros r1 r2 Hstatus. split.
  - rewrite !handleHTTPError_Return_iff, Hstatus. tauto.
  - intros e. rewrite !handleHTTPError_Throw_iff, Hstatus. tauto.
Qed.

(** X6: on the same kind, arguments and transport, a failure that [post]
    throws is thrown by [fetch] as well, and whenever [fetch] returns,
    [post] returns: [post] has no failure of its own. *)
Theorem post_failure_is_fetch_failure :
  forall (type : EResourceType) (args : Args) (log : list AxiosRequestConfig),
    (forall e : Exception,
        fst (post EHttpStatus Args newRequest credHeader axios type args log) = Throw e ->
        fst (fetch EHttpStatus Args newRequest credHeader axios type args log) = Throw e)
    /\ (forall d : CursoredData,
          fst (fetch EHttpStatus Args newRequest credHeader axios type args log) = Return d ->
          exists b, fst (post EHttpStatus Args newRequest credHeader axios type args log)
                    = Return b).
Proof.
  intros type args log. rewrite post_run, fetch_run.
  destruct (newRequest type args) as [config|e0].
  - destruct (request EHttpStatus credHeader axios config log) as [[r|e1] log'];
      cbn [fst]; split.
    + intros e H. discriminate H.
    + intros d _. eauto.
    + intros e [= ->]. reflexivity.
    + intros d H. discriminate H.
  - cbn [fst]. split.
    + intros e [= ->]. reflexivity.
    + intros d H. discriminate H.
Qed.

(** X7: when the response passes the classification step and its body is
    an array or an object, [post] returns true, whatever the body holds: an
    empty object, an empty array and an object that lists errors all count
    as a success. *)
Theorem post_true_for_structured_body :
  forall (type : EResourceType) (args : Args) (log : list AxiosRequestConfig)
         (config : Request) (res : AxiosResponse),
    newRequest type args = Return config ->
    axios log (axiosRequest credHeader config) = Return res ->
    status res = 200 \/ EHttpStatus !! status res = None ->
    (exists items, data res = JArray items) \/ (exists fields, data res = JObject fields) ->
    fst (post EHttpStatus Args newRequest credHeader axios type args log) = Return true.
Proof.
  intros type args log config res Hnew Hax Hpass Hbody.
  rewrite post_run, Hnew.
  pose proof (proj2 (request_Return_iff config log res) (conj Hax Hpass)) as Hreq.
  destruct (request EHttpStatus credHeader axios config log)
    as [[r|e] log']; cbn [fst] in *; [|discriminate Hreq].
  injection Hreq as ->.
  destruct Hbody as [[items ->]|[fields ->]]; reflexivity.
Qed.

End Outcomes.

Lemma handleHTTPError_reads_status_only_witness :
  handleHTTPError sampleStatusTable (respond 403 (JString "suspended")) =
    Throw (Error "FORBIDDEN") <->
  handleHTTPError sampleStatusTable (respond 403 (JObject [ ("errors", JArray []) ])) =
    Throw (Error "FORBIDDEN").
Proof.
  apply (proj2 (handleHTTPError_reads_status_only sampleStatusTable
                  (respond 403 (JString "suspended"))
                  (respond 403 (JObject [ ("errors", JArray []) ]))
                  eq_refl)).
Defined.

Lemma post_true_for_structured_body_witness :
  fst (post sampleStatusTable string sampleNewRequest sampleHeader
         (answering (Return (respond 200
            (JObject [ ("errors", JArray [ JObject [ ("message", JString "denied") ] ]) ]))))
         (OTHER_RESOURCE "CREATE_TWEET") "t" []) = Return true.
Proof.
  apply (post_true_for_structured_body sampleStatusTable string sampleNewRequest sampleHeader
           (answering (Return (respond 200
              (JObject [ ("errors", JArray [ JObject [ ("message", JString "denied") ] ]) ]))))
           (OTHER_RESOURCE "CREATE_TWEET") "t" []
           (sampleRequest (OTHER_RESOURCE "CREATE_TWEET") "t")
           (respond 200
              (JObject [ ("errors", JArray [ JObject [ ("message", JString "denied") ] ]) ]))).
  - reflexivity.
  - reflexivity.
  - left. reflexivity.
  - right. eexists. reflexivity.
Defined.

Lemma fetch_returns_only_passed_witness :
  exists config res,
    sampleNewRequest TWEET_DETAILS "x" = Return config
    /\ answering (Return (respond 200 sampleTree)) [] (axiosRequest sampleHeader config)
       = Return res
    /\ (status res = 200 \/ sampleStatusTable !! status res = None)
    /\ extractData sampleTree TWEET_DETAILS = extractData (data res) TWEET_DETAILS.
Proof.
  apply (fetch_returns_only_passed sampleStatusTable string sampleNewRequest sampleHeader
           (answering (Return (respond 200 sampleTree))) TWEET_DETAILS "x" []
           (extractData sampleTree TWEET_DETAILS)).
  reflexivity.
Defined.

Lemma fetch_post_requests_sent_witness :
  (snd (fetch sampleStatusTable string sampleNewRequest sampleHeader
          (answering (Return (respond 200 sampleTree))) TWEET_DETAILS "x" [])
   = [] ++ [axiosRequest sampleHeader (sampleRequest TWEET_DETAILS "x")]
   /\ snd (post sampleStatusTable string sampleNewRequest sampleHeader
             (answering (Return (respond 200 sampleTree))) TWEET_DETAILS "x" [])
      = [] ++ [axiosRequest sampleHeader (sampleRequest TWEET_DETAILS "x")])
  /\ (fetch sampleStatusTable string sampleNewRequest sampleHeader
         (answering (Return (respond 200 sampleTree))) TWEET_DETAILS "" []
       = (Throw (ConstructorFailure "DataValidationError"), [])
      /\ post sampleStatusTable string sampleNewRequest sampleHeader
           (answering (Return (respond 200 sampleTree))) TWEET_DETAILS "" []
         = (Throw (ConstructorFailure "DataValidationError"), [])).
Proof.
  split.
  - apply (proj1 (fetch_post_requests_sent sampleStatusTable string sampleNewRequest
                    sampleHeader (answering (Return (respond 200 sampleTree)))
                    TWEET_DETAILS "x" [])
             (sampleRequest TWEET_DETAILS "x")).
    reflexivity.
  - apply (proj2 (fetch_post_requests_sent sampleStatusTable string sampleNewRequest
                    sampleHeader (answering (Return (respond 200 sampleTree)))
                    TWEET_DETAILS "" [])).
    reflexivity.
Defined.
